(** * server.js: a one-route relay in front of a hosted language model

    The program is the Express application of [server.js]: it checks the
    [AI_KEY] credential at start-up, listens on port 8080, and answers
    [POST /] by forwarding [prompt] and [history] to the
    [@google/generative-ai] client and mapping what comes back to an HTTP
    status and body.

    The embedding follows the file top to bottom:
    - [JS]: the JavaScript values the handler inspects (a parsed JSON body),
      with truthiness, [||], [=== true] and property reads;
    - the surface of the client library that [run] touches, as records of
      methods that either return or throw;
    - the effects ([console], [res], the calls made) as a trace of events
      written by a small state-and-exception monad;
    - [run], the route [handler], the module body [main] and the request
      loop [serve], transcribed statement by statement.

    Two things are outside the embedding and are stated here once.  The
    promise awaited in [run] is taken to settle: the code sets no timeout of
    its own, so a timeout is visible to it only as a rejection raised by the
    client.  The client library receives [generationConfig] by reference but
    is modelled as a function of its arguments, so it cannot write to it. *)

From Stdlib Require Import ZArith.
From Stdlib Require Import PrimFloat.
From stdpp Require Import base option list gmap strings pretty.

Set Default Proof Using "Type".
Set Warnings "-register-all,-inexact-float".
Local Open Scope Z_scope.

(** ** JavaScript values *)

Module JS.

(** A value as [JSON.parse] builds it, plus [undefined] for a property
    that is not there.  Numbers are binary64, as in the language. *)
Inductive value : Type :=
| VUndefined
| VNull
| VBool (b : bool)
| VNum (x : float)
| VStr (s : string)
| VArr (l : list value)
| VObj (m : gmap string value).

(** A call either returns or throws; anything can be thrown. *)
Inductive outcome (A : Type) : Type :=
| Returns (a : A)
| Throws (e : value).
Arguments Returns {A} a.
Arguments Throws {A} e.

(** [ToBoolean]: the test behind [!x], [x || y] and [if (x)].  A number is
    falsy when it is [+0], [-0] or [NaN]; [NaN] is the one float that is
    not equal to itself. *)
Definition ToBoolean (v : value) : bool :=
  match v with
  | VUndefined | VNull => false
  | VBool b => b
  | VNum x => negb (PrimFloat.eqb x 0%float) && PrimFloat.eqb x x
  | VStr s => negb (String.eqb s "")
  | VArr _ | VObj _ => true
  end.

(** [a || b] yields the left operand itself when it is truthy. *)
Definition LogicalOr (a b : value) : value :=
  if ToBoolean a then a else b.

(** [v === true]: no coercion, only the boolean [true] passes. *)
Definition StrictEqualsTrue (v : value) : bool :=
  match v with
  | VBool true => true
  | _ => false
  end.

Definition TypeError (msg : string) : value :=
  VObj {[ "name" := VStr "TypeError"; "message" := VStr msg ]}.

(** [v.k] for the property names this program reads ([prompt], [history],
    [Response], [text]).  None of them is an array index or is defined on
    a prototype, so only an own property of an object can answer; reading
    from [undefined] or [null] throws. *)
Definition Get (v : value) (k : string) : outcome value :=
  match v with
  | VUndefined =>
      Throws (TypeError ("Cannot read properties of undefined (reading '" +:+ k +:+ "')"))
  | VNull =>
      Throws (TypeError ("Cannot read properties of null (reading '" +:+ k +:+ "')"))
  | VObj m => Returns (default VUndefined (m !! k))
  | VBool _ | VNum _ | VStr _ | VArr _ => Returns VUndefined
  end.

Definition is_string (v : value) : bool :=
  match v with VStr _ => true | _ => false end.

Definition is_array (v : value) : bool :=
  match v with VArr _ => true | _ => false end.

Definition nullish (v : value) : bool :=
  match v with VUndefined | VNull => true | _ => false end.

End JS.
Import JS.

(** ** The client library, as far as [run] uses it *)

(** [generationConfig], lines 40-45. *)
Record GenerationConfig : Type := {
  temperature : float;
  topP : float;
  topK : float;
  responseMimeType : string
}.

(** The argument of [genai.getGenerativeModel]. *)
Record ModelParams : Type := {
  model : string;
  systemInstruction : string
}.

(** The argument of [model.startChat]; [history] is whatever the handler
    passes, not necessarily an array. *)
Record StartChatParams : Type := {
  sc_generationConfig : GenerationConfig;
  sc_history : value
}.

(** [result.response.text()] either yields the reply or throws. *)
Record GenerateContentResult : Type := {
  response_text : outcome string
}.

(** [chatSession.sendMessage(prompt)]: the awaited promise fulfils or
    rejects. *)
Record ChatSession : Type := {
  sendMessage : value -> outcome GenerateContentResult
}.

Record GenerativeModel : Type := {
  startChat : StartChatParams -> outcome ChatSession
}.

(** What [genai] does while one request is served.  The object is created
    once, in [main]; what its methods answer is up to the remote service at
    the time of the call, so each request is served against one such
    behaviour. *)
Record GoogleGenerativeAI : Type := {
  getGenerativeModel : ModelParams -> outcome GenerativeModel
}.

(** ** Effects *)

Inductive event : Type :=
| ConsoleError (args : list value)
| ConsoleLog (args : list value)
| ProcessExit (code : Z)
| NewGoogleGenerativeAI (key : value)
| AppListen (port : Z)
| CallRun (prompt history : value)
| GetGenerativeModel (p : ModelParams)
| StartChat (p : StartChatParams)
| SendMessage (prompt : value)
| ResStatus (code : Z)
| ResSend (body : value).

(** The module-level bindings a request can see. *)
Record module_scope : Type := {
  PORT : Z;
  apiKey : value;
  generationConfig : GenerationConfig
}.

(** A computation reads and may replace the module scope, returns or throws,
    and leaves a trace. *)
Definition M (A : Type) : Type :=
  module_scope -> outcome A * module_scope * list event.

Definition ret {A} (a : A) : M A := fun G => (Returns a, G, []).

Definition bind {A B} (m : M A) (k : A -> M B) : M B :=
  fun G =>
    match m G with
    | (Returns a, G1, t1) =>
        let '(r, G2, t2) := k a G1 in (r, G2, t1 ++ t2)
    | (Throws e, G1, t1) => (Throws e, G1, t1)
    end.

Declare Scope js_scope.
Delimit Scope js_scope with js.
Notation "x <- m ;; k" := (bind m (fun x => k))
  (at level 100, m at next level, right associativity) : js_scope.
Notation "m ;;; k" := (bind m (fun _ => k))
  (at level 100, right associativity) : js_scope.
Local Open Scope js_scope.

Definition emit (e : event) : M unit := fun G => (Returns tt, G, [e]).

Definition lift {A} (o : outcome A) : M A := fun G => (o, G, []).

Definition read {A} (f : module_scope -> A) : M A :=
  fun G => (Returns (f G), G, []).

(** A call into the library: recorded, then it returns or throws. *)
Definition call {A} (e : event) (o : outcome A) : M A :=
  emit e ;;; lift o.

(** [try { body } catch (err) { handler }]. *)
Definition try_catch {A} (body : M A) (handler : value -> M A) : M A :=
  fun G =>
    match body G with
    | (Returns a, G1, t1) => (Returns a, G1, t1)
    | (Throws e, G1, t1) =>
        let '(r, G2, t2) := handler e G1 in (r, G2, t1 ++ t2)
    end.

(** ** The program *)

(** Lines 40-45. *)
Definition generationConfig_literal : GenerationConfig :=
  {| temperature := 0%float;
     topP := 0.95%float;
     topK := 64%float;
     responseMimeType := "text/plain" |}.

(** Lines 55-58. *)
Definition modelParams : ModelParams :=
  {| model := "gemini-1.5-flash";
     systemInstruction :=
       "Make every response very short,maximum 150 characters length" |}.

(** The body of the [try] block of [run], lines 55-68. *)
Definition run_try (genai : GoogleGenerativeAI) (prompt history : value) : M value :=
  mdl <- call (GetGenerativeModel modelParams) (getGenerativeModel genai modelParams) ;;
  cfg <- read generationConfig ;;
  let params := {| sc_generationConfig := cfg; sc_history := history |} in
  chatSession <- call (StartChat params) (startChat mdl params) ;;
  result <- call (SendMessage prompt) (sendMessage chatSession prompt) ;;
  text <- lift (response_text result) ;;
  ret (VObj {[ "Response" := VBool true; "text" := VStr text ]}).

(** [run], lines 53-73. *)
Definition run (genai : GoogleGenerativeAI) (prompt history : value) : M value :=
  emit (CallRun prompt history) ;;;
  try_catch (run_try genai prompt history)
    (fun err =>
       emit (ConsoleError [VStr "Error during AI model interaction:"; err]) ;;;
       ret (VObj {[ "Response" := VBool false ]})).

Definition prompt_required : string := "Prompt is required.".

Definition error_processing : string :=
  "Error processing request. Check server logs for details.".

(** The route handler, lines 76-94; [body] is [req.body]. *)
Definition handler (genai : GoogleGenerativeAI) (body : value) : M unit :=
  prompt <- lift (Get body "prompt") ;;
  h <- lift (Get body "history") ;;
  let history := LogicalOr h (VArr []) in
  if negb (ToBoolean prompt) then
    emit (ResStatus 400) ;;; emit (ResSend (VStr prompt_required))
  else
    response <- run genai prompt history ;;
    flag <- lift (Get response "Response") ;;
    if StrictEqualsTrue flag then
      emit (ResStatus 200) ;;;
      text <- lift (Get response "text") ;;
      emit (ResSend text)
    else
      emit (ResStatus 500) ;;; emit (ResSend (VStr error_processing)).

(** What the handler's own calls put on the wire: the status in force when
    [send] is first called (200 unless [status] was called), and the body
    given to it.  A handler that throws before calling [send] has written
    nothing; whatever the client receives then is the work of Express's error
    handling, which is not part of this file. *)
Record HttpResponse : Type := {
  status : Z;
  payload : value
}.

Fixpoint respond (code : Z) (tr : list event) : option HttpResponse :=
  match tr with
  | [] => None
  | ResStatus c :: tr' => respond c tr'
  | ResSend b :: _ => Some {| status := code; payload := b |}
  | _ :: tr' => respond code tr'
  end.

Definition response_of (tr : list event) : option HttpResponse := respond 200 tr.

(** One request/response cycle: how the handler completed, the module scope
    it left behind, and everything it did. *)
Record exchange : Type := {
  completion : outcome unit;
  scope_after : module_scope;
  trace : list event
}.

Definition handleChatRequest (G : module_scope) (genai : GoogleGenerativeAI)
    (body : value) : exchange :=
  let '(r, G', tr) := handler genai body G in
  {| completion := r; scope_after := G'; trace := tr |}.

(** The response written by the handler, if it wrote one. *)
Definition response (x : exchange) : option HttpResponse := response_of (trace x).

(** Requests are served one after the other, each against the scope the
    previous one left. *)
Fixpoint serve (G : module_scope) (reqs : list (GoogleGenerativeAI * value))
    : list exchange * module_scope :=
  match reqs with
  | [] => ([], G)
  | (genai, body) :: rest =>
      let x := handleChatRequest G genai body in
      let '(xs, G') := serve (scope_after x) rest in
      (x :: xs, G')
  end.

(** The module body, lines 11-45 and 97-99; [env] is [process.env]. *)
Inductive process_state : Type :=
| Exited (code : Z)
| Serving (G : module_scope).

Definition main (env : gmap string string) : process_state * list event :=
  let PORT := 8080 in
  let apiKey := from_option VStr VUndefined (env !! "AI_KEY") in
  if negb (ToBoolean apiKey) then
    (Exited 1,
     [ConsoleError [VStr "Error: AI_KEY environment variable is not set."];
      ConsoleError [VStr "Please set the AI_KEY environment variable with your Google AI API key."];
      ProcessExit 1])
  else
    (Serving {| PORT := PORT; apiKey := apiKey;
                generationConfig := generationConfig_literal |},
     [NewGoogleGenerativeAI apiKey;
      AppListen PORT;
      ConsoleLog [VStr ("Server is running on http://localhost:" +:+ pretty PORT)]]).

(** ** Vocabulary for the statements *)

(** What the service answers to the calls of the [try] block, in the order
    the block makes them: the reply text, or the first thing thrown. *)
Definition provider_reply (genai : GoogleGenerativeAI) (cfg : GenerationConfig)
    (prompt history : value) : outcome string :=
  match getGenerativeModel genai modelParams with
  | Throws e => Throws e
  | Returns mdl =>
      match startChat mdl {| sc_generationConfig := cfg; sc_history := history |} with
      | Throws e => Throws e
      | Returns chatSession =>
          match sendMessage chatSession prompt with
          | Throws e => Throws e
          | Returns result => response_text result
          end
      end
  end.

(** The invocations of [run] in a trace, with their arguments. *)
Definition run_calls (tr : list event) : list (value * value) :=
  flat_map (fun e => match e with CallRun p h => [(p, h)] | _ => [] end) tr.

(** The arguments of the [getGenerativeModel], [startChat] and [sendMessage]
    calls in a trace. *)
Definition model_requests (tr : list event) : list ModelParams :=
  flat_map (fun e => match e with GetGenerativeModel p => [p] | _ => [] end) tr.

Definition chat_sessions (tr : list event) : list StartChatParams :=
  flat_map (fun e => match e with StartChat p => [p] | _ => [] end) tr.

Definition messages_sent (tr : list event) : list value :=
  flat_map (fun e => match e with SendMessage p => [p] | _ => [] end) tr.

(** What [console.error] was given. *)
Definition errors_logged (tr : list event) : list (list value) :=
  flat_map (fun e => match e with ConsoleError a => [a] | _ => [] end) tr.

Definition ports_bound (tr : list event) : list Z :=
  flat_map (fun e => match e with AppListen p => [p] | _ => [] end) tr.

Definition exit_codes (tr : list event) : list Z :=
  flat_map (fun e => match e with ProcessExit c => [c] | _ => [] end) tr.

(** The object [run] builds on each path. *)
Definition success_object (t : string) : value :=
  VObj {[ "Response" := VBool true; "text" := VStr t ]}.

Definition failure_object : value :=
  VObj {[ "Response" := VBool false ]}.

Definition logged (e : value) : event :=
  ConsoleError [VStr "Error during AI model interaction:"; e].

(** ** Test doubles *)

(** A service that answers every message with [t]. *)
Definition stub_reply (t : string) : GoogleGenerativeAI :=
  {| getGenerativeModel := fun _ => Returns
       {| startChat := fun _ => Returns
            {| sendMessage := fun _ => Returns {| response_text := Returns t |} |} |} |}.

(** A service whose [sendMessage] rejects with [e]. *)
Definition stub_rejecting (e : value) : GoogleGenerativeAI :=
  {| getGenerativeModel := fun _ => Returns
       {| startChat := fun _ => Returns
            {| sendMessage := fun _ => Throws e |} |} |}.

(** A client that, like the real one, refuses a history that is not an
    array when the session is created, and otherwise answers [t]. *)
Definition stub_checking_history (t : string) : GoogleGenerativeAI :=
  {| getGenerativeModel := fun _ => Returns
       {| startChat := fun p =>
            if is_array (sc_history p) then
              Returns {| sendMessage := fun _ => Returns {| response_text := Returns t |} |}
            else Throws (TypeError "history is not iterable") |} |}.

Definition scope0 : module_scope :=
  {| PORT := 8080; apiKey := VStr "k3y"; generationConfig := generationConfig_literal |}.

Definition network_down : value :=
  VObj {[ "name" := VStr "FetchError"; "message" := VStr "getaddrinfo ENOTFOUND" ]}.

(** Request bodies after [bodyParser.json()]. *)
Definition body_hello : value :=
  VObj {[ "prompt" := VStr "Hello"; "history" := VArr [] ]}.

Definition body_hi : value :=
  VObj {[ "prompt" := VStr "Hi" ]}.

Definition body_no_prompt : value :=
  VObj {[ "history" := VArr [] ]}.

Definition body_numeric_prompt : value :=
  VObj {[ "prompt" := VNum 5%float ]}.

Definition body_string_history : value :=
  VObj {[ "prompt" := VStr "Hi"; "history" := VStr "abc" ]}.

Definition body_empty_history : value :=
  VObj {[ "prompt" := VStr "Hi"; "history" := VArr [] ]}.

(** Every [getGenerativeModel] call names the fixed model and instruction,
    and every chat session is created with the fixed configuration. *)
Definition bound_as_configured (tr : list event) : Prop :=
  Forall (fun p => p = modelParams) (model_requests tr) /\
  Forall (fun p => sc_generationConfig p = generationConfig_literal) (chat_sessions tr).

(** ** Further vocabulary *)

Definition is_object (v : value) : bool :=
  match v with VObj _ => true | _ => false end.

(** The arguments of [res.status] and [res.send] in a trace. *)
Definition statuses_set (tr : list event) : list Z :=
  flat_map (fun e => match e with ResStatus c => [c] | _ => [] end) tr.

Definition bodies_sent (tr : list event) : list value :=
  flat_map (fun e => match e with ResSend b => [b] | _ => [] end) tr.

(** The keys given to [new GoogleGenerativeAI]. *)
Definition clients_created (tr : list event) : list value :=
  flat_map (fun e => match e with NewGoogleGenerativeAI k => [k] | _ => [] end) tr.

(** A client that, like the real one, rejects a message that is not a
    string, and otherwise answers [t]. *)
Definition stub_checking_prompt (t : string) : GoogleGenerativeAI :=
  {| getGenerativeModel := fun _ => Returns
       {| startChat := fun _ => Returns
            {| sendMessage := fun msg =>
                 if is_string msg then Returns {| response_text := Returns t |}
                 else Throws (TypeError "request is not iterable") |} |} |}.

(** A client whose [startChat] throws [e]. *)
Definition stub_refusing_session (e : value) : GoogleGenerativeAI :=
  {| getGenerativeModel := fun _ => Returns {| startChat := fun _ => Throws e |} |}.

Definition bad_history : value :=
  VObj {[ "name" := VStr "GoogleGenerativeAIError";
          "message" := VStr "First content should be with role 'user', got model" ]}.

(** [[{"prompt": "Hello"}]]: the request wrapped in an array. *)
Definition body_array : value :=
  VArr [VObj {[ "prompt" := VStr "Hello" ]}].

(** A body with [history: null] and fields the handler never reads. *)
Definition body_hi_extra : value :=
  VObj {[ "prompt" := VStr "Hi"; "history" := VNull;
          "model" := VStr "gemini-pro"; "temperature" := VNum 1%float ]}.

(** A history whose first turn is not the user's. *)
Definition body_model_first : value :=
  VObj {[ "prompt" := VStr "Hi";
          "history" := VArr [VObj {[ "role" := VStr "model";
                                     "parts" := VArr [VObj {[ "text" := VStr "x" ]}] ]}] ]}.

(** ** The paths through the handler *)

(** Every request takes exactly one of four paths: the property read throws
    (only when [req.body] is [undefined] or [null]), the prompt is falsy,
    the service replies, or some call to the service throws. *)
Inductive handled (G : module_scope) (genai : GoogleGenerativeAI) (body : value)
    : exchange -> Prop :=
| handled_no_body e :
    nullish body = true ->
    handled G genai body {| completion := Throws e; scope_after := G; trace := [] |}
| handled_rejected p :
    Get body "prompt" = Returns p ->
    ToBoolean p = false ->
    handled G genai body
      {| completion := Returns tt; scope_after := G;
         trace := [ResStatus 400; ResSend (VStr prompt_required)] |}
| handled_replied p h t :
    Get body "prompt" = Returns p ->
    Get body "history" = Returns h ->
    ToBoolean p = true ->
    provider_reply genai (generationConfig G) p (LogicalOr h (VArr [])) = Returns t ->
    handled G genai body
      {| completion := Returns tt; scope_after := G;
         trace := [CallRun p (LogicalOr h (VArr []));
                   GetGenerativeModel modelParams;
                   StartChat {| sc_generationConfig := generationConfig G;
                                sc_history := LogicalOr h (VArr []) |};
                   SendMessage p;
                   ResStatus 200; ResSend (VStr t)] |}
| handled_failed p h e calls :
    Get body "prompt" = Returns p ->
    Get body "history" = Returns h ->
    ToBoolean p = true ->
    provider_reply genai (generationConfig G) p (LogicalOr h (VArr [])) = Throws e ->
    calls = [] \/
    calls = [StartChat {| sc_generationConfig := generationConfig G;
                          sc_history := LogicalOr h (VArr []) |}] \/
    calls = [StartChat {| sc_generationConfig := generationConfig G;
                          sc_history := LogicalOr h (VArr []) |};
             SendMessage p] ->
    handled G genai body
      {| completion := Returns tt; scope_after := G;
         trace := CallRun p (LogicalOr h (VArr [])) :: GetGenerativeModel modelParams ::
                  calls ++ [logged e; ResStatus 500; ResSend (VStr error_processing)] |}.

(** ** Basic facts *)

Lemma Get_object (m : gmap string value) (k : string) :
  Get (VObj m) k = Returns (default VUndefined (m !! k)).
Proof. reflexivity. Qed.

Lemma Get_returns (body : value) (k : string) :
  nullish body = false -> exists v, Get body k = Returns v.
Proof.
  destruct body; simpl; intros H; try discriminate; eauto.
Qed.

Lemma Get_defined (body : value) (k : string) (v : value) :
  Get body k = Returns v -> nullish body = false.
Proof.
  destruct body; simpl; intros H; congruence.
Qed.

Lemma ToBoolean_string (s : string) :
  ToBoolean (VStr s) = false <-> s = "".
Proof.
  simpl. rewrite negb_false_iff. apply String.eqb_eq.
Qed.

Lemma LogicalOr_falsy (a b : value) :
  ToBoolean a = false -> LogicalOr a b = b.
Proof. unfold LogicalOr. intros ->. reflexivity. Qed.

Lemma LogicalOr_truthy (a b : value) :
  ToBoolean a = true -> LogicalOr a b = a.
Proof. unfold LogicalOr. intros ->. reflexivity. Qed.

Lemma success_flag (t : string) :
  Get (success_object t) "Response" = Returns (VBool true).
Proof. reflexivity. Qed.

Lemma success_text (t : string) :
  Get (success_object t) "text" = Returns (VStr t).
Proof. reflexivity. Qed.

Lemma failure_flag : Get failure_object "Response" = Returns (VBool false).
Proof. reflexivity. Qed.

(** ** [run] *)

Lemma run_success genai prompt history G t :
  provider_reply genai (generationConfig G) prompt history = Returns t ->
  run genai prompt history G =
    (Returns (success_object t), G,
     [CallRun prompt history;
      GetGenerativeModel modelParams;
      StartChat {| sc_generationConfig := generationConfig G; sc_history := history |};
      SendMessage prompt]).
Proof.
  unfold provider_reply, run, run_try, try_catch, call, bind, emit, lift, read, ret.
  destruct (getGenerativeModel genai modelParams) as [mdl|]; [|discriminate].
  cbn. destruct (startChat mdl _) as [chatSession|]; [|discriminate].
  cbn. destruct (sendMessage chatSession prompt) as [result|]; [|discriminate].
  cbn. intros ->. reflexivity.
Qed.

Lemma run_failure genai prompt history G e :
  provider_reply genai (generationConfig G) prompt history = Throws e ->
  exists calls,
    run genai prompt history G =
      (Returns failure_object, G,
       CallRun prompt history :: GetGenerativeModel modelParams :: calls ++ [logged e])
    /\ (calls = [] \/
        calls = [StartChat {| sc_generationConfig := generationConfig G;
                              sc_history := history |}] \/
        calls = [StartChat {| sc_generationConfig := generationConfig G;
                              sc_history := history |};
                 SendMessage prompt]).
Proof.
  unfold provider_reply, run, run_try, try_catch, call, bind, emit, lift, read, ret.
  destruct (getGenerativeModel genai modelParams) as [mdl|e1].
  2:{ intros [= ->]. exists []. split; [reflexivity|auto]. }
  cbn. destruct (startChat mdl _) as [chatSession|e2].
  2:{ intros [= ->]. eexists [_]. split; [reflexivity|auto]. }
  cbn. destruct (sendMessage chatSession prompt) as [result|e3].
  2:{ intros [= ->]. eexists [_; _]. split; [reflexivity|auto]. }
  cbn. intros ->. eexists [_; _]. split; [reflexivity|auto].
Qed.

(** ** The three paths through the handler *)

Lemma handler_falsy_prompt G genai body p :
  Get body "prompt" = Returns p ->
  ToBoolean p = false ->
  handleChatRequest G genai body =
    {| completion := Returns tt; scope_after := G;
       trace := [ResStatus 400; ResSend (VStr prompt_required)] |}.
Proof.
  intros Hp Hf.
  destruct (Get_returns body "history" (Get_defined _ _ _ Hp)) as [h Hh].
  unfold handleChatRequest, handler, bind, lift. rewrite Hp, Hh. cbn.
  rewrite Hf. reflexivity.
Qed.

Lemma handler_success G genai body p h t :
  Get body "prompt" = Returns p ->
  Get body "history" = Returns h ->
  ToBoolean p = true ->
  provider_reply genai (generationConfig G) p (LogicalOr h (VArr [])) = Returns t ->
  handleChatRequest G genai body =
    {| completion := Returns tt; scope_after := G;
       trace := [CallRun p (LogicalOr h (VArr []));
                 GetGenerativeModel modelParams;
                 StartChat {| sc_generationConfig := generationConfig G;
                              sc_history := LogicalOr h (VArr []) |};
                 SendMessage p;
                 ResStatus 200; ResSend (VStr t)] |}.
Proof.
  intros Hp Hh Ht Hr.
  unfold handleChatRequest, handler, bind at 1 2 3, lift at 1 2. rewrite Hp, Hh. cbn.
  rewrite Ht. cbn. unfold bind at 1. rewrite (run_success _ _ _ _ _ Hr).
  reflexivity.
Qed.

Lemma handler_failure G genai body p h e :
  Get body "prompt" = Returns p ->
  Get body "history" = Returns h ->
  ToBoolean p = true ->
  provider_reply genai (generationConfig G) p (LogicalOr h (VArr [])) = Throws e ->
  exists calls,
    handleChatRequest G genai body =
      {| completion := Returns tt; scope_after := G;
         trace := CallRun p (LogicalOr h (VArr [])) :: GetGenerativeModel modelParams ::
                  calls ++ [logged e; ResStatus 500; ResSend (VStr error_processing)] |}
    /\ (calls = [] \/
        calls = [StartChat {| sc_generationConfig := generationConfig G;
                              sc_history := LogicalOr h (VArr []) |}] \/
        calls = [StartChat {| sc_generationConfig := generationConfig G;
                              sc_history := LogicalOr h (VArr []) |};
                 SendMessage p]).
Proof.
  intros Hp Hh Ht Hr.
  destruct (run_failure _ _ _ _ _ Hr) as (calls & Hrun & Hcalls).
  exists calls. split; [|exact Hcalls].
  unfold handleChatRequest, handler, bind at 1 2 3, lift at 1 2. rewrite Hp, Hh. cbn.
  rewrite Ht. cbn. unfold bind at 1. rewrite Hrun.
  unfold bind at 1, lift at 1. rewrite failure_flag.
  cbn. rewrite <- app_assoc. reflexivity.
Qed.

Lemma handler_paths G genai body :
  handled G genai body (handleChatRequest G genai body).
Proof.
  destruct (nullish body) eqn:Hn.
  - destruct body; try discriminate; eapply handled_no_body; reflexivity.
  - destruct (Get_returns body "prompt" Hn) as [p Hp].
    destruct (Get_returns body "history" Hn) as [h Hh].
    destruct (ToBoolean p) eqn:Ht.
    + destruct (provider_reply genai (generationConfig G) p (LogicalOr h (VArr [])))
        as [t|e] eqn:Hr.
      * rewrite (handler_success _ _ _ _ _ _ Hp Hh Ht Hr).
        eapply handled_replied; eassumption.
      * destruct (handler_failure _ _ _ _ _ _ Hp Hh Ht Hr) as (calls & -> & Hc).
        eapply handled_failed; eassumption.
    + rewrite (handler_falsy_prompt _ _ _ _ Hp Ht).
      eapply handled_rejected; eassumption.
Qed.

(** The handler never writes to the module scope. *)
Lemma handler_frame G genai body :
  scope_after (handleChatRequest G genai body) = G.
Proof.
  destruct (handler_paths G genai body); reflexivity.
Qed.

(** So a request is answered as if it were the first one. *)
Lemma serve_independent reqs G :
  serve G reqs = (map (fun r => handleChatRequest G r.1 r.2) reqs, G).
Proof.
  induction reqs as [|[genai body] rest IH]; [reflexivity|].
  cbn [serve map]. rewrite handler_frame, IH. reflexivity.
Qed.

Lemma handler_bound_as_configured G genai body :
  generationConfig G = generationConfig_literal ->
  bound_as_configured (trace (handleChatRequest G genai body)).
Proof.
  intros HG. unfold bound_as_configured.
  destruct (handler_paths G genai body) as [ | | | ? ? ? calls ? ? ? ? Hc]; cbn.
  - split; constructor.
  - split; constructor.
  - split; repeat constructor. exact HG.
  - destruct Hc as [->|[->| ->]]; cbn; split; repeat constructor; exact HG.
Qed.

Lemma main_serving env G boot :
  main env = (Serving G, boot) ->
  G = {| PORT := 8080;
         apiKey := from_option VStr VUndefined (env !! "AI_KEY");
         generationConfig := generationConfig_literal |}.
Proof.
  unfold main. destruct (negb _); intros H; [discriminate|].
  injection H as <- _. reflexivity.
Qed.

(** ** Validation of the prompt *)

(** The values [!prompt] lets through to the 400 branch. *)
Lemma falsy_values (p : value) :
  ToBoolean p = false <->
  p = VUndefined \/ p = VNull \/ p = VBool false \/ p = VStr "" \/
  exists x, p = VNum x /\ (PrimFloat.eqb x 0%float = true \/ PrimFloat.eqb x x = false).
Proof.
  split.
  - destruct p as [| |[]|x|s|l|m]; cbn; intros H; try discriminate; auto.
    + right; right; right; right. exists x. split; [reflexivity|].
      apply andb_false_iff in H as [H|H]; [left|right]; [|exact H].
      now apply negb_false_iff in H.
    + right; right; right; left. f_equal. now apply ToBoolean_string.
  - intros [->|[->|[->|[->|(x & -> & H)]]]]; try reflexivity.
    cbn. apply andb_false_iff. destruct H as [H|H]; [left|right]; [|exact H].
    now rewrite H.
Qed.

Lemma absent_prompt (m : gmap string value) :
  m !! "prompt" = None -> Get (VObj m) "prompt" = Returns VUndefined.
Proof. intros H. cbn. now rewrite H. Qed.

(** It is not true of the code that every prompt that is not a string is sent
    to the 400 branch: [{"prompt": 5}] is answered 200 by a service replying
    "ok", after [run] was called with the number 5. *)
Lemma numeric_prompt_reaches_run :
  ~ (forall G genai body p,
       Get body "prompt" = Returns p ->
       p = VUndefined \/ p = VStr "" \/ is_string p = false ->
       response (handleChatRequest G genai body) =
         Some {| status := 400; payload := VStr "Prompt is required." |}
       /\ run_calls (trace (handleChatRequest G genai body)) = []).
Proof.
  intros claim.
  destruct (claim scope0 (stub_reply "ok") body_numeric_prompt (VNum 5%float))
    as [H400 _]; [reflexivity | right; right; reflexivity |].
  vm_compute in H400. discriminate H400.
Qed.

(** C1 at [{"prompt": 5}]: the prompt is not a string, yet the guard
    [!prompt] lets it through.  Whatever the client does, [run] is called
    with the number 5 and the answer is not 400: a client that insists on a
    string message answers through the failure path (500), one that replies
    "ok" gives 200. *)
Theorem numeric_prompt_is_forwarded :
  is_string (VNum 5%float) = false
  /\ (forall G genai,
        run_calls (trace (handleChatRequest G genai body_numeric_prompt)) =
          [(VNum 5%float, VArr [])])
  /\ (forall G genai,
        exists r, response (handleChatRequest G genai body_numeric_prompt) = Some r
                  /\ status r <> 400)
  /\ response (handleChatRequest scope0 (stub_checking_prompt "Hi there!")
                 body_numeric_prompt) =
       Some {| status := 500;
               payload := VStr "Error processing request. Check server logs for details." |}
  /\ response (handleChatRequest scope0 (stub_reply "ok") body_numeric_prompt) =
       Some {| status := 200; payload := VStr "ok" |}.
Proof.
  assert (Get body_numeric_prompt "prompt" = Returns (VNum 5%float)) as Hp by reflexivity.
  assert (Get body_numeric_prompt "history" = Returns VUndefined) as Hh by reflexivity.
  assert (ToBoolean (VNum 5%float) = true) as Ht by reflexivity.
  split; [reflexivity|]. split; [|split; [|split; reflexivity]].
  - intros G genai.
    destruct (provider_reply genai (generationConfig G) (VNum 5%float)
                (LogicalOr VUndefined (VArr []))) as [t|e] eqn:Hr.
    + rewrite (handler_success _ _ _ _ _ _ Hp Hh Ht Hr). reflexivity.
    + destruct (handler_failure _ _ _ _ _ _ Hp Hh Ht Hr) as (calls & -> & Hc).
      destruct Hc as [->|[->| ->]]; reflexivity.
  - intros G genai.
    destruct (provider_reply genai (generationConfig G) (VNum 5%float)
                (LogicalOr VUndefined (VArr []))) as [t|e] eqn:Hr.
    + rewrite (handler_success _ _ _ _ _ _ Hp Hh Ht Hr).
      eexists. split; [reflexivity|]. cbn. lia.
    + destruct (handler_failure _ _ _ _ _ _ Hp Hh Ht Hr) as (calls & -> & Hc).
      destruct Hc as [->|[->| ->]]; (eexists; split; [reflexivity|]; cbn; lia).
Qed.

(** The guard of line 82, both ways: a falsy prompt is answered 400 with body
    "Prompt is required." and neither [run] nor the client is called; a
    truthy one reaches [run] and the answer is not 400. *)
Theorem falsy_prompt_is_rejected G genai body p :
  Get body "prompt" = Returns p ->
  (ToBoolean p = false ->
     response (handleChatRequest G genai body) =
       Some {| status := 400; payload := VStr "Prompt is required." |}
     /\ run_calls (trace (handleChatRequest G genai body)) = []
     /\ model_requests (trace (handleChatRequest G genai body)) = []
     /\ chat_sessions (trace (handleChatRequest G genai body)) = []
     /\ messages_sent (trace (handleChatRequest G genai body)) = [])
  /\ (ToBoolean p = true ->
     (exists h, run_calls (trace (handleChatRequest G genai body)) = [(p, h)])
     /\ exists r, response (handleChatRequest G genai body) = Some r /\ status r <> 400).
Proof.
  intros Hp. split; intros Ht.
  - rewrite (handler_falsy_prompt _ _ _ _ Hp Ht). repeat split.
  - destruct (handler_paths G genai body)
      as [e Hn|p' Hp' Ht'|p' h t Hp' _ _ _|p' h e calls Hp' _ _ _ Hc].
    + apply Get_defined in Hp. congruence.
    + congruence.
    + assert (p' = p) as -> by congruence.
      split; [eexists; reflexivity|]. eexists. split; [reflexivity|]. cbn. lia.
    + assert (p' = p) as -> by congruence.
      destruct Hc as [->|[->| ->]];
        (split; [eexists; reflexivity|]; eexists; split; [reflexivity|]; cbn; lia).
Qed.

Lemma falsy_prompt_is_rejected_witness :
  response (handleChatRequest scope0 (stub_reply "Hi there!") body_no_prompt) =
    Some {| status := 400; payload := VStr "Prompt is required." |}
  /\ run_calls (trace (handleChatRequest scope0 (stub_reply "Hi there!") body_no_prompt)) = []
  /\ exists h, run_calls (trace (handleChatRequest scope0 (stub_reply "ok") body_numeric_prompt))
               = [(VNum 5%float, h)].
Proof.
  destruct (falsy_prompt_is_rejected scope0 (stub_reply "Hi there!") body_no_prompt
              VUndefined eq_refl) as [Hfalsy _].
  destruct (Hfalsy eq_refl) as (H400 & Hrun & _).
  destruct (falsy_prompt_is_rejected scope0 (stub_reply "ok") body_numeric_prompt
              (VNum 5%float) eq_refl) as [_ Htruthy].
  destruct (Htruthy eq_refl) as [Hcall _].
  exact (conj H400 (conj Hrun Hcall)).
Defined.

(** ** The reply of the service *)

(** C2: when the prompt is accepted and the calls to the service succeed
    with text [t], the answer is 200 and its body is the string [t] itself. *)
Theorem provider_text_is_relayed_verbatim G genai body p h t :
  Get body "prompt" = Returns p ->
  Get body "history" = Returns h ->
  ToBoolean p = true ->
  provider_reply genai (generationConfig G) p (LogicalOr h (VArr [])) = Returns t ->
  response (handleChatRequest G genai body) =
    Some {| status := 200; payload := VStr t |}.
Proof.
  intros Hp Hh Ht Hr. rewrite (handler_success _ _ _ _ _ _ Hp Hh Ht Hr). reflexivity.
Qed.

Lemma provider_text_is_relayed_verbatim_witness :
  response (handleChatRequest scope0 (stub_reply "Hi there!") body_hello) =
    Some {| status := 200; payload := VStr "Hi there!" |}.
Proof.
  apply (provider_text_is_relayed_verbatim scope0 (stub_reply "Hi there!") body_hello
           (VStr "Hello") (VArr []) "Hi there!"); reflexivity.
Defined.

(** C3: when the prompt is accepted and any call to the service throws (or
    the awaited promise rejects) with [e], whatever [e] is, the answer is 500
    with the fixed body; [e] goes to [console.error] and nowhere else. *)
Theorem provider_failure_is_a_fixed_500 G genai body p h e :
  Get body "prompt" = Returns p ->
  Get body "history" = Returns h ->
  ToBoolean p = true ->
  provider_reply genai (generationConfig G) p (LogicalOr h (VArr [])) = Throws e ->
  response (handleChatRequest G genai body) =
    Some {| status := 500;
            payload := VStr "Error processing request. Check server logs for details." |}
  /\ errors_logged (trace (handleChatRequest G genai body)) =
       [[VStr "Error during AI model interaction:"; e]].
Proof.
  intros Hp Hh Ht Hr.
  destruct (handler_failure _ _ _ _ _ _ Hp Hh Ht Hr) as (calls & -> & Hc).
  destruct Hc as [->|[->| ->]]; split; reflexivity.
Qed.

Lemma provider_failure_is_a_fixed_500_witness :
  response (handleChatRequest scope0 (stub_rejecting network_down) body_hi) =
    Some {| status := 500;
            payload := VStr "Error processing request. Check server logs for details." |}
  /\ errors_logged (trace (handleChatRequest scope0 (stub_rejecting network_down) body_hi)) =
       [[VStr "Error during AI model interaction:"; network_down]].
Proof.
  apply (provider_failure_is_a_fixed_500 scope0 (stub_rejecting network_down) body_hi
           (VStr "Hi") VUndefined network_down); reflexivity.
Defined.

(** ** The history handed to the service *)

Lemma run_called_with G genai body p h :
  Get body "prompt" = Returns p ->
  Get body "history" = Returns h ->
  ToBoolean p = true ->
  run_calls (trace (handleChatRequest G genai body)) = [(p, LogicalOr h (VArr []))].
Proof.
  intros Hp Hh Ht.
  destruct (provider_reply genai (generationConfig G) p (LogicalOr h (VArr [])))
    as [t|e] eqn:Hr.
  - rewrite (handler_success _ _ _ _ _ _ Hp Hh Ht Hr). reflexivity.
  - destruct (handler_failure _ _ _ _ _ _ Hp Hh Ht Hr) as (calls & -> & Hc).
    destruct Hc as [->|[->| ->]]; reflexivity.
Qed.

(** X7: the part of the default that works: a history that is absent, [null]
    or otherwise falsy is replaced by the empty array. *)
Lemma falsy_history_defaults_to_empty G genai body p h :
  Get body "prompt" = Returns p ->
  Get body "history" = Returns h ->
  ToBoolean p = true ->
  ToBoolean h = false ->
  run_calls (trace (handleChatRequest G genai body)) = [(p, VArr [])].
Proof.
  intros Hp Hh Ht Hf.
  rewrite (run_called_with _ _ _ _ _ Hp Hh Ht), (LogicalOr_falsy _ _ Hf). reflexivity.
Qed.

(** C4 at [{"prompt": "Hi", "history": "abc"}]: the history is a string, not
    an array, yet [run] receives the string "abc" where the same request with
    [history = []] hands over the empty array; a client that checks the
    history answers the first with a failure (500) and the second with its
    reply (200). *)
Theorem string_history_is_forwarded :
  is_array (VStr "abc") = false
  /\ (forall G genai,
        run_calls (trace (handleChatRequest G genai body_string_history)) =
          [(VStr "Hi", VStr "abc")])
  /\ (forall G genai,
        run_calls (trace (handleChatRequest G genai body_empty_history)) =
          [(VStr "Hi", VArr [])])
  /\ response (handleChatRequest scope0 (stub_checking_history "Hi there!")
                 body_string_history) =
       Some {| status := 500;
               payload := VStr "Error processing request. Check server logs for details." |}
  /\ response (handleChatRequest scope0 (stub_checking_history "Hi there!")
                 body_empty_history) =
       Some {| status := 200; payload := VStr "Hi there!" |}.
Proof.
  split; [reflexivity|]. split; [|split; [|split; reflexivity]].
  - intros G genai.
    apply (run_called_with G genai body_string_history (VStr "Hi") (VStr "abc"));
      reflexivity.
  - intros G genai.
    apply (run_called_with G genai body_empty_history (VStr "Hi") (VArr []));
      reflexivity.
Qed.

(** ** Start-up *)

Lemma blank_credential_is_missing (env : gmap string string) :
  env !! "AI_KEY" = Some "" -> (main env).1 = Exited 1.
Proof. unfold main. intros ->. reflexivity. Qed.

(** C5: with [AI_KEY] not set the module prints its two diagnostics, exits
    with status 1 and never reaches [app.listen]; with [AI_KEY] set to a key
    it creates the client, calls [app.listen] on port 8080 and does not exit.
    (A variable set to the empty string holds no key and is treated as not
    set: [blank_credential_is_missing].) *)
Theorem startup_requires_credential (env : gmap string string) :
  (env !! "AI_KEY" = None ->
     exists code, code <> 0
       /\ main env =
           (Exited code,
            [ConsoleError [VStr "Error: AI_KEY environment variable is not set."];
             ConsoleError
               [VStr "Please set the AI_KEY environment variable with your Google AI API key."];
             ProcessExit code])
       /\ ports_bound (main env).2 = [])
  /\ (forall key, env !! "AI_KEY" = Some key -> key <> "" ->
        exists G, (main env).1 = Serving G
          /\ apiKey G = VStr key
          /\ PORT G = 8080
          /\ ports_bound (main env).2 = [8080]
          /\ exit_codes (main env).2 = []).
Proof.
  split.
  - intros Hk. exists 1. unfold main. rewrite Hk. cbn. repeat split. lia.
  - intros key Hk Hne. unfold main. rewrite Hk. cbn.
    destruct (String.eqb_spec key "") as [->|_]; [congruence|].
    cbn. eexists. repeat split.
Qed.

Lemma startup_requires_credential_witness :
  (exists code, code <> 0 /\ (main ∅).1 = Exited code)
  /\ ports_bound (main ∅).2 = []
  /\ exists G, (main {[ "AI_KEY" := "k3y" ]}).1 = Serving G
       /\ ports_bound (main {[ "AI_KEY" := "k3y" ]}).2 = [8080].
Proof.
  destruct (startup_requires_credential ∅) as [Habsent _].
  destruct (Habsent eq_refl) as (code & Hcode & Hmain & Hports).
  destruct (startup_requires_credential {[ "AI_KEY" := "k3y" ]}) as [_ Hpresent].
  destruct (Hpresent "k3y" eq_refl) as (G & HG & _ & _ & Hbound & _); [discriminate|].
  split; [exists code; split; [assumption | now rewrite Hmain]|].
  split; [exact Hports|].
  exists G. split; assumption.
Defined.

(** ** Containment of failures *)

Lemma run_total genai prompt history G :
  exists o tr, run genai prompt history G = (Returns o, G, tr).
Proof.
  destruct (provider_reply genai (generationConfig G) prompt history) as [t|e] eqn:Hr.
  - rewrite (run_success _ _ _ _ _ Hr). eauto.
  - destruct (run_failure _ _ _ _ _ Hr) as (calls & -> & _). eauto.
Qed.

(** C6: for an accepted prompt, whatever the service does, [run] returns an
    object and never throws, and so does the handler; [run] is entered once,
    the client is asked for the model once, and a chat session is created
    and a message sent at most once each: nothing is tried a second time. *)
Theorem provider_failures_are_contained G genai body p :
  Get body "prompt" = Returns p ->
  ToBoolean p = true ->
  (forall prompt history G', exists o tr,
      run genai prompt history G' = (Returns o, G', tr))
  /\ completion (handleChatRequest G genai body) = Returns tt
  /\ length (run_calls (trace (handleChatRequest G genai body))) = 1%nat
  /\ length (model_requests (trace (handleChatRequest G genai body))) = 1%nat
  /\ (length (chat_sessions (trace (handleChatRequest G genai body))) <= 1)%nat
  /\ (length (messages_sent (trace (handleChatRequest G genai body))) <= 1)%nat
  /\ (forall t h,
        Get body "history" = Returns h ->
        provider_reply genai (generationConfig G) p (LogicalOr h (VArr [])) = Returns t ->
        messages_sent (trace (handleChatRequest G genai body)) = [p]).
Proof.
  intros Hp Ht. split; [intros; apply run_total|].
  destruct (Get_returns body "history" (Get_defined _ _ _ Hp)) as [h Hh].
  destruct (provider_reply genai (generationConfig G) p (LogicalOr h (VArr [])))
    as [t|e] eqn:Hr.
  - rewrite (handler_success _ _ _ _ _ _ Hp Hh Ht Hr). cbn.
    repeat split; try lia.
  - destruct (handler_failure _ _ _ _ _ _ Hp Hh Ht Hr) as (calls & -> & Hc).
    assert (forall t h', Get body "history" = Returns h' ->
              provider_reply genai (generationConfig G) p (LogicalOr h' (VArr [])) =
                Returns t -> False) as Hno.
    { intros t h' Hh' Hr'. rewrite Hh in Hh'. injection Hh' as <-. congruence. }
    destruct Hc as [->|[->| ->]]; cbn; repeat split; try lia;
      intros t h' Hh' Hr'; destruct (Hno t h' Hh' Hr').
Qed.

Lemma provider_failures_are_contained_witness :
  completion (handleChatRequest scope0 (stub_rejecting network_down) body_hi) = Returns tt
  /\ length (run_calls (trace (handleChatRequest scope0 (stub_rejecting network_down)
                                 body_hi))) = 1%nat
  /\ (length (messages_sent (trace (handleChatRequest scope0 (stub_rejecting network_down)
                                      body_hi))) <= 1)%nat.
Proof.
  destruct (provider_failures_are_contained scope0 (stub_rejecting network_down) body_hi
              (VStr "Hi") eq_refl eq_refl)
    as (_ & Hdone & Hrun & _ & _ & Hsent & _).
  exact (conj Hdone (conj Hrun Hsent)).
Defined.

(** ** Constants of the process *)

(** C7: in a process that started, the configuration is
    [{temperature: 0, topP: 0.95, topK: 64, responseMimeType: "text/plain"}];
    however many requests are served it is still that at the end and after
    every request, every [getGenerativeModel] call names "gemini-1.5-flash"
    with the fixed system instruction, and every chat session is created
    with that configuration. *)
Theorem configuration_is_constant env G boot reqs :
  main env = (Serving G, boot) ->
  generationConfig G =
    {| temperature := 0%float; topP := 0.95%float; topK := 64%float;
       responseMimeType := "text/plain" |}
  /\ modelParams =
    {| model := "gemini-1.5-flash";
       systemInstruction :=
         "Make every response very short,maximum 150 characters length" |}
  /\ (serve G reqs).2 = G
  /\ Forall (fun x => scope_after x = G /\ bound_as_configured (trace x)) (serve G reqs).1.
Proof.
  intros Hmain. apply main_serving in Hmain.
  assert (generationConfig G = generationConfig_literal) as HG by (subst G; reflexivity).
  split; [exact HG|]. split; [reflexivity|].
  rewrite serve_independent. split; [reflexivity|].
  cbn [fst]. apply Forall_forall. intros x Hx.
  apply list_elem_of_In, in_map_iff in Hx as ([genai body] & <- & _).
  split; [apply handler_frame|apply handler_bound_as_configured, HG].
Qed.

Lemma configuration_is_constant_witness :
  (serve scope0 [(stub_reply "Hi there!", body_hello);
                 (stub_rejecting network_down, body_hi)]).2 = scope0
  /\ Forall (fun x => scope_after x = scope0 /\ bound_as_configured (trace x))
       (serve scope0 [(stub_reply "Hi there!", body_hello);
                      (stub_rejecting network_down, body_hi)]).1.
Proof.
  assert (main {[ "AI_KEY" := "k3y" ]} =
            (Serving scope0,
             [NewGoogleGenerativeAI (VStr "k3y"); AppListen 8080;
              ConsoleLog [VStr "Server is running on http://localhost:8080"]]))
    as Hmain by (vm_compute; reflexivity).
  destruct (configuration_is_constant _ _ _
              [(stub_reply "Hi there!", body_hello);
               (stub_rejecting network_down, body_hi)] Hmain)
    as (_ & _ & Hscope & Hall).
  exact (conj Hscope Hall).
Defined.

(** ** Statelessness *)

(** The answer is a function of the body and of what the service replied:
    neither the scope nor anything else about the service matters. *)
Lemma response_determined_by_reply G1 G2 genai1 genai2 body :
  (forall p h,
      Get body "prompt" = Returns p ->
      Get body "history" = Returns h ->
      ToBoolean p = true ->
      provider_reply genai1 (generationConfig G1) p (LogicalOr h (VArr [])) =
      provider_reply genai2 (generationConfig G2) p (LogicalOr h (VArr []))) ->
  response (handleChatRequest G1 genai1 body) =
  response (handleChatRequest G2 genai2 body).
Proof.
  intros Hsame.
  destruct (handler_paths G1 genai1 body)
    as [e Hn|p Hp Ht|p h t Hp Hh Ht Hr|p h e calls Hp Hh Ht Hr Hc].
  - destruct body; try discriminate; reflexivity.
  - rewrite (handler_falsy_prompt _ _ _ _ Hp Ht). reflexivity.
  - rewrite (Hsame p h Hp Hh Ht) in Hr.
    rewrite (handler_success _ _ _ _ _ _ Hp Hh Ht Hr). reflexivity.
  - rewrite (Hsame p h Hp Hh Ht) in Hr.
    destruct (handler_failure _ _ _ _ _ _ Hp Hh Ht Hr) as (calls2 & -> & Hc2).
    destruct Hc as [->|[->| ->]]; destruct Hc2 as [->|[->| ->]]; reflexivity.
Qed.

(** C8: when the same body arrives twice, with any traffic before and in
    between, nothing is left in the module scope, each of the two is answered
    exactly as it would be on a freshly started server, each calls [run] once
    with the prompt and the history of its own body, and if the service
    replies the same both times the two answers are equal. *)
Theorem relay_is_stateless G before between genai1 genai2 body :
  exists xs1 x1 xs2 x2,
    serve G (before ++ (genai1, body) :: between ++ [(genai2, body)]) =
      (xs1 ++ x1 :: xs2 ++ [x2], G)
    /\ length xs1 = length before
    /\ length xs2 = length between
    /\ x1 = handleChatRequest G genai1 body
    /\ x2 = handleChatRequest G genai2 body
    /\ (forall p h,
          Get body "prompt" = Returns p ->
          Get body "history" = Returns h ->
          ToBoolean p = true ->
          run_calls (trace x1) = [(p, LogicalOr h (VArr []))]
          /\ run_calls (trace x2) = [(p, LogicalOr h (VArr []))])
    /\ ((forall p h,
           Get body "prompt" = Returns p ->
           Get body "history" = Returns h ->
           ToBoolean p = true ->
           provider_reply genai1 (generationConfig G) p (LogicalOr h (VArr [])) =
           provider_reply genai2 (generationConfig G) p (LogicalOr h (VArr []))) ->
        response x1 = response x2).
Proof.
  pose (one := fun r : GoogleGenerativeAI * value => handleChatRequest G r.1 r.2).
  exists (map one before), (handleChatRequest G genai1 body),
         (map one between), (handleChatRequest G genai2 body).
  split; [|split; [|split; [|split; [|split; [|split]]]]].
  - rewrite serve_independent. fold one.
    rewrite map_app. cbn [map]. rewrite map_app. reflexivity.
  - apply length_map.
  - apply length_map.
  - reflexivity.
  - reflexivity.
  - intros p h Hp Hh Ht. split; apply run_called_with; assumption.
  - apply response_determined_by_reply.
Qed.

Lemma relay_is_stateless_witness :
  exists x1 x2,
    x1 = handleChatRequest scope0 (stub_reply "Hi there!") body_hello
    /\ x2 = handleChatRequest scope0 (stub_reply "Hi there!") body_hello
    /\ run_calls (trace x1) = [(VStr "Hello", VArr [])]
    /\ run_calls (trace x2) = [(VStr "Hello", VArr [])]
    /\ response x1 = response x2.
Proof.
  destruct (relay_is_stateless scope0 [] [(stub_rejecting network_down, body_hi)]
              (stub_reply "Hi there!") (stub_reply "Hi there!") body_hello)
    as (xs1 & x1 & xs2 & x2 & _ & _ & _ & H1 & H2 & Hcalls & Hsame).
  destruct (Hcalls (VStr "Hello") (VArr []) eq_refl eq_refl eq_refl) as [Hc1 Hc2].
  exists x1, x2. repeat split; try assumption.
  apply Hsame. intros p h _ _ _. reflexivity.
Defined.

(** ** The response mapping *)

(** C9, as stated, fails: the three branches are not every outcome.  With
    [req.body] undefined the read of [req.body.prompt] on line 77 throws, so
    the handler takes none of its branches and sets none of the three
    statuses. *)
Lemma missing_body_takes_no_branch :
  ~ (forall G genai body,
       exists code,
         statuses_set (trace (handleChatRequest G genai body)) = [code]
         /\ (code = 400 \/ code = 200 \/ code = 500)).
Proof.
  intros claim.
  destruct (claim scope0 (stub_reply "Hi there!") VUndefined) as (code & Hset & _).
  discriminate Hset.
Qed.

(** C9, amended: a request that reaches the handler with a body that is not
    [undefined] or [null] gets an answer from the handler, and its status is
    400 (prompt falsy), 200 (the service replied) or 500 (a call to the
    service threw); the handler completes without throwing. *)
Theorem status_is_400_200_or_500 G genai body :
  nullish body = false ->
  completion (handleChatRequest G genai body) = Returns tt
  /\ exists r p h,
       response (handleChatRequest G genai body) = Some r
       /\ Get body "prompt" = Returns p
       /\ Get body "history" = Returns h
       /\ (status r = 400 \/ status r = 200 \/ status r = 500)
       /\ status r =
            if ToBoolean p then
              match provider_reply genai (generationConfig G) p (LogicalOr h (VArr [])) with
              | Returns _ => 200
              | Throws _ => 500
              end
            else 400.
Proof.
  intros Hn.
  destruct (Get_returns body "history" Hn) as [h0 Hh0].
  destruct (handler_paths G genai body)
    as [e Hn'|p Hp Ht|p h t Hp Hh Ht Hr|p h e calls Hp Hh Ht Hr Hc].
  - congruence.
  - split; [reflexivity|]. eexists _, p, h0. rewrite Ht.
    repeat split; cbn; auto.
  - split; [reflexivity|]. eexists _, p, h. rewrite Ht, Hr.
    repeat split; cbn; auto.
  - split; [reflexivity|].
    exists {| status := 500; payload := VStr error_processing |}, p, h.
    rewrite Ht, Hr.
    destruct Hc as [->|[->| ->]]; repeat split; cbn; auto.
Qed.

Lemma status_is_400_200_or_500_witness :
  completion (handleChatRequest scope0 (stub_reply "Hi there!") body_no_prompt) = Returns tt
  /\ exists r,
       response (handleChatRequest scope0 (stub_reply "Hi there!") body_no_prompt) = Some r
       /\ (status r = 400 \/ status r = 200 \/ status r = 500).
Proof.
  destruct (status_is_400_200_or_500 scope0 (stub_reply "Hi there!") body_no_prompt eq_refl)
    as (Hdone & r & p & h & Hr & _ & _ & Hstatus & _).
  split; [exact Hdone|]. exists r. split; assumption.
Defined.

(** ** The object returned by [run] *)

(** C10: [run] returns an object that has a [text] property exactly when its
    [Response] property is [true]: it is [{Response: true, text: t}] when the
    service replied [t] and [{Response: false}], with nothing else in it,
    when a call to the service threw. *)
Theorem run_result_has_text_iff_success genai prompt history G :
  exists o tr,
    run genai prompt history G = (Returns (VObj o), G, tr)
    /\ (is_Some (o !! "text") <-> o !! "Response" = Some (VBool true))
    /\ (forall e,
          provider_reply genai (generationConfig G) prompt history = Throws e ->
          o = {[ "Response" := VBool false ]})
    /\ (forall t,
          provider_reply genai (generationConfig G) prompt history = Returns t ->
          o = {[ "Response" := VBool true; "text" := VStr t ]}).
Proof.
  destruct (provider_reply genai (generationConfig G) prompt history) as [t|e] eqn:Hr.
  - rewrite (run_success _ _ _ _ _ Hr).
    eexists _, _. split; [reflexivity|]. split; [|split].
    + split; [reflexivity|]. intros _. eexists. reflexivity.
    + intros e [=].
    + intros t' [= <-]. reflexivity.
  - destruct (run_failure _ _ _ _ _ Hr) as (calls & -> & _).
    eexists _, _. split; [reflexivity|]. split; [|split].
    + split; [intros [v [=]]|intros [=]].
    + reflexivity.
    + intros t [=].
Qed.

Lemma run_result_has_text_iff_success_witness :
  exists o tr,
    run (stub_rejecting network_down) (VStr "Hi") (VArr []) scope0 =
      (Returns (VObj o), scope0, tr)
    /\ o = {[ "Response" := VBool false ]}.
Proof.
  destruct (run_result_has_text_iff_success (stub_rejecting network_down)
              (VStr "Hi") (VArr []) scope0) as (o & tr & Hrun & _ & Hfail & _).
  exists o, tr. split; [exact Hrun|]. apply (Hfail network_down). reflexivity.
Defined.

(** ** Further properties of the handler *)

Lemma run_calls_exact genai prompt history G :
  exists o tr,
    run genai prompt history G = (Returns o, G, tr)
    /\ (o = failure_object \/ exists t, o = success_object t)
    /\ chat_sessions tr =
         match getGenerativeModel genai modelParams with
         | Returns _ =>
             [{| sc_generationConfig := generationConfig G; sc_history := history |}]
         | Throws _ => []
         end
    /\ messages_sent tr =
         match getGenerativeModel genai modelParams with
         | Returns mdl =>
             match startChat mdl {| sc_generationConfig := generationConfig G;
                                    sc_history := history |} with
             | Returns _ => [prompt]
             | Throws _ => []
             end
         | Throws _ => []
         end.
Proof.
  unfold run, run_try, try_catch, call, bind, emit, lift, read, ret.
  destruct (getGenerativeModel genai modelParams) as [mdl|e1]; cbn.
  2:{ eexists _, _. split; [reflexivity|]. split; [now left|]. split; reflexivity. }
  destruct (startChat mdl _) as [chatSession|e2]; cbn.
  2:{ eexists _, _. split; [reflexivity|]. split; [now left|]. split; reflexivity. }
  destruct (sendMessage chatSession prompt) as [result|e3]; cbn.
  2:{ eexists _, _. split; [reflexivity|]. split; [now left|]. split; reflexivity. }
  destruct (response_text result) as [t|e4]; cbn.
  - eexists _, _. split; [reflexivity|]. split; [right; now exists t|]. split; reflexivity.
  - eexists _, _. split; [reflexivity|]. split; [now left|]. split; reflexivity.
Qed.

Lemma handler_after_run G genai body p h o tr :
  Get body "prompt" = Returns p ->
  Get body "history" = Returns h ->
  ToBoolean p = true ->
  run genai p (LogicalOr h (VArr [])) G = (Returns o, G, tr) ->
  o = failure_object \/ (exists t, o = success_object t) ->
  exists code text,
    handleChatRequest G genai body =
      {| completion := Returns tt; scope_after := G;
         trace := tr ++ [ResStatus code; ResSend (VStr text)] |}.
Proof.
  intros Hp Hh Ht Hrun Ho.
  unfold handleChatRequest, handler, bind at 1 2 3, lift at 1 2. rewrite Hp, Hh. cbn.
  rewrite Ht. cbn. unfold bind at 1. rewrite Hrun.
  destruct Ho as [->|[t ->]]; unfold bind at 1, lift at 1.
  - rewrite failure_flag. eexists _, _. reflexivity.
  - rewrite success_flag. eexists _, _. reflexivity.
Qed.

Lemma chat_sessions_app (t1 t2 : list event) :
  chat_sessions (t1 ++ t2) = chat_sessions t1 ++ chat_sessions t2.
Proof. apply flat_map_app. Qed.

Lemma messages_sent_app (t1 t2 : list event) :
  messages_sent (t1 ++ t2) = messages_sent t1 ++ messages_sent t2.
Proof. apply flat_map_app. Qed.

(** X1: a JSON body that is not an object (an array, or any primitive other
    than [null]) has no [prompt] to read, so it is answered 400 with body
    "Prompt is required." and [run] is not called. *)
Theorem non_object_body_is_rejected G genai body :
  nullish body = false ->
  is_object body = false ->
  response (handleChatRequest G genai body) =
    Some {| status := 400; payload := VStr "Prompt is required." |}
  /\ run_calls (trace (handleChatRequest G genai body)) = [].
Proof.
  intros Hn Ho.
  assert (Get body "prompt" = Returns VUndefined) as Hp
    by (destruct body; try discriminate; reflexivity).
  rewrite (handler_falsy_prompt _ _ _ _ Hp eq_refl). split; reflexivity.
Qed.

Lemma non_object_body_is_rejected_witness :
  response (handleChatRequest scope0 (stub_reply "Hi there!") body_array) =
    Some {| status := 400; payload := VStr "Prompt is required." |}
  /\ run_calls (trace (handleChatRequest scope0 (stub_reply "Hi there!") body_array)) = [].
Proof.
  apply (non_object_body_is_rejected scope0 (stub_reply "Hi there!") body_array);
    reflexivity.
Defined.

(** X2: when [req.body] is [undefined] or [null] the read of
    [req.body.prompt] throws a [TypeError]: the handler ends by throwing
    before it has called [res.status], [res.send] or [run]. *)
Theorem missing_body_throws_before_responding G genai body :
  nullish body = true ->
  (exists msg, completion (handleChatRequest G genai body) = Throws (TypeError msg))
  /\ statuses_set (trace (handleChatRequest G genai body)) = []
  /\ bodies_sent (trace (handleChatRequest G genai body)) = []
  /\ run_calls (trace (handleChatRequest G genai body)) = [].
Proof.
  intros Hn.
  destruct body; try discriminate; (split; [eexists; reflexivity|repeat split]).
Qed.

Lemma missing_body_throws_before_responding_witness :
  (exists msg, completion (handleChatRequest scope0 (stub_reply "Hi there!") VUndefined)
               = Throws (TypeError msg))
  /\ bodies_sent (trace (handleChatRequest scope0 (stub_reply "Hi there!") VUndefined)) = [].
Proof.
  destruct (missing_body_throws_before_responding scope0 (stub_reply "Hi there!")
              VUndefined eq_refl) as (Hthrow & _ & Hnone & _).
  exact (conj Hthrow Hnone).
Defined.

(** X3: for a body that can be read, the handler calls [res.status] once and
    [res.send] once, in that order, as the last two things it does, and what
    it sends is always a string. *)
Theorem response_is_written_once G genai body :
  nullish body = false ->
  exists before code text,
    trace (handleChatRequest G genai body) =
      before ++ [ResStatus code; ResSend (VStr text)]
    /\ statuses_set before = []
    /\ bodies_sent before = [].
Proof.
  intros Hn.
  destruct (handler_paths G genai body)
    as [e Hn'|p Hp Ht|p h t Hp Hh Ht Hr|p h e calls Hp Hh Ht Hr Hc].
  - congruence.
  - exists [], 400, prompt_required. repeat split.
  - eexists [_; _; _; _], 200, t. repeat split.
  - exists (CallRun p (LogicalOr h (VArr [])) :: GetGenerativeModel modelParams ::
            calls ++ [logged e]), 500, error_processing.
    split; [cbn; now rewrite <- app_assoc|].
    destruct Hc as [->|[->| ->]]; split; reflexivity.
Qed.

Lemma response_is_written_once_witness :
  exists before code text,
    trace (handleChatRequest scope0 (stub_rejecting network_down) body_hi) =
      before ++ [ResStatus code; ResSend (VStr text)]
    /\ statuses_set before = []
    /\ bodies_sent before = [].
Proof.
  apply (response_is_written_once scope0 (stub_rejecting network_down) body_hi).
  reflexivity.
Defined.

(** X4: for a body that can be read, [console.error] is called exactly on
    the 500 path, once, with the fixed label and the very value the client
    threw; a rejected prompt (400) and a relayed reply (200) leave nothing in
    the log. *)
Theorem only_failures_are_logged G genai body r :
  nullish body = false ->
  response (handleChatRequest G genai body) = Some r ->
  (status r = 500 ->
     exists p h e,
       Get body "prompt" = Returns p
       /\ Get body "history" = Returns h
       /\ provider_reply genai (generationConfig G) p (LogicalOr h (VArr [])) = Throws e
       /\ errors_logged (trace (handleChatRequest G genai body)) =
            [[VStr "Error during AI model interaction:"; e]])
  /\ (status r <> 500 ->
     errors_logged (trace (handleChatRequest G genai body)) = []).
Proof.
  intros Hn.
  destruct (handler_paths G genai body)
    as [e Hn'|p Hp Ht|p h t Hp Hh Ht Hr|p h e calls Hp Hh Ht Hr Hc].
  - congruence.
  - intros [= <-]. cbn. split; [lia|reflexivity].
  - intros [= <-]. cbn. split; [lia|reflexivity].
  - intros Hresp. split.
    + intros _. exists p, h, e. repeat split; try assumption.
      destruct Hc as [->|[->| ->]]; reflexivity.
    + intros Hne. exfalso. apply Hne.
      destruct Hc as [->|[->| ->]]; injection Hresp as <-; reflexivity.
Qed.

Lemma only_failures_are_logged_witness :
  (exists p h e,
     Get body_hi "prompt" = Returns p
     /\ Get body_hi "history" = Returns h
     /\ provider_reply (stub_rejecting network_down) (generationConfig scope0) p
          (LogicalOr h (VArr [])) = Throws e
     /\ errors_logged (trace (handleChatRequest scope0 (stub_rejecting network_down)
                                body_hi)) =
          [[VStr "Error during AI model interaction:"; e]])
  /\ errors_logged (trace (handleChatRequest scope0 (stub_reply "Hi there!")
                             body_no_prompt)) = [].
Proof.
  destruct (only_failures_are_logged scope0 (stub_rejecting network_down) body_hi
              {| status := 500; payload := VStr error_processing |} eq_refl eq_refl)
    as [H500 _].
  destruct (only_failures_are_logged scope0 (stub_reply "Hi there!") body_no_prompt
              {| status := 400; payload := VStr prompt_required |} eq_refl eq_refl)
    as [_ Hquiet].
  split; [apply H500; reflexivity|apply Hquiet; cbn; lia].
Defined.

(** X5: the handler reads [prompt] and [history] and nothing else.  Two
    bodies with the same prompt whose histories come to the same value after
    the [|| []] default are handled identically, whatever other fields they
    carry; in particular a field named after a model parameter changes
    nothing, and [history: null] is the same as no history. *)
Theorem unread_fields_are_ignored G genai body1 body2 p h1 h2 :
  Get body1 "prompt" = Returns p ->
  Get body2 "prompt" = Returns p ->
  Get body1 "history" = Returns h1 ->
  Get body2 "history" = Returns h2 ->
  LogicalOr h1 (VArr []) = LogicalOr h2 (VArr []) ->
  handleChatRequest G genai body1 = handleChatRequest G genai body2.
Proof.
  intros Hp1 Hp2 Hh1 Hh2 Hsame.
  unfold handleChatRequest, handler, bind at 1 2 3 4 5 6, lift at 1 2 3 4.
  rewrite Hp1, Hp2, Hh1, Hh2. cbn. rewrite Hsame. reflexivity.
Qed.

Lemma unread_fields_are_ignored_witness :
  handleChatRequest scope0 (stub_reply "Hi there!") body_hi =
  handleChatRequest scope0 (stub_reply "Hi there!") body_hi_extra.
Proof.
  apply (unread_fields_are_ignored scope0 (stub_reply "Hi there!") body_hi body_hi_extra
           (VStr "Hi") VUndefined VNull); reflexivity.
Defined.

(** X6: a history that is an array reaches [startChat] as it came, empty or
    not and whatever its entries look like: the handler neither checks nor
    filters them. *)
Theorem array_history_is_passed_unchecked G genai body p l mdl :
  Get body "prompt" = Returns p ->
  ToBoolean p = true ->
  Get body "history" = Returns (VArr l) ->
  getGenerativeModel genai modelParams = Returns mdl ->
  run_calls (trace (handleChatRequest G genai body)) = [(p, VArr l)]
  /\ chat_sessions (trace (handleChatRequest G genai body)) =
       [{| sc_generationConfig := generationConfig G; sc_history := VArr l |}].
Proof.
  intros Hp Ht Hh Hm.
  split; [exact (run_called_with _ _ _ _ _ Hp Hh Ht)|].
  destruct (run_calls_exact genai p (LogicalOr (VArr l) (VArr [])) G)
    as (o & tr & Hrun & Ho & Hsessions & _).
  destruct (handler_after_run _ _ _ _ _ _ _ Hp Hh Ht Hrun Ho) as (code & text & ->).
  cbn [trace]. rewrite chat_sessions_app, Hsessions, Hm. reflexivity.
Qed.

Lemma array_history_is_passed_unchecked_witness :
  chat_sessions (trace (handleChatRequest scope0 (stub_reply "Hi there!") body_model_first)) =
    [{| sc_generationConfig := generationConfig scope0;
        sc_history := VArr [VObj {[ "role" := VStr "model";
                                    "parts" := VArr [VObj {[ "text" := VStr "x" ]}] ]}] |}].
Proof.
  eapply (proj2 (array_history_is_passed_unchecked scope0 (stub_reply "Hi there!")
                   body_model_first (VStr "Hi") _ _ eq_refl eq_refl eq_refl eq_refl)).
Defined.

Lemma falsy_history_defaults_to_empty_witness :
  run_calls (trace (handleChatRequest scope0 (stub_reply "Hi there!") body_hi_extra)) =
    [(VStr "Hi", VArr [])].
Proof.
  apply (falsy_history_defaults_to_empty scope0 (stub_reply "Hi there!") body_hi_extra
           (VStr "Hi") VNull); reflexivity.
Defined.

(** X8: the calls into the client stop at the first one that throws.  If
    [getGenerativeModel] throws no session is created; if [startChat] throws
    (as the client does for a history it does not accept) no message is
    sent; only when both return is the prompt sent, once and as it came. *)
Theorem client_calls_stop_at_first_throw G genai body p h :
  Get body "prompt" = Returns p ->
  Get body "history" = Returns h ->
  ToBoolean p = true ->
  (forall e,
      getGenerativeModel genai modelParams = Throws e ->
      chat_sessions (trace (handleChatRequest G genai body)) = []
      /\ messages_sent (trace (handleChatRequest G genai body)) = [])
  /\ (forall mdl e,
      getGenerativeModel genai modelParams = Returns mdl ->
      startChat mdl {| sc_generationConfig := generationConfig G;
                       sc_history := LogicalOr h (VArr []) |} = Throws e ->
      messages_sent (trace (handleChatRequest G genai body)) = [])
  /\ (forall mdl chatSession,
      getGenerativeModel genai modelParams = Returns mdl ->
      startChat mdl {| sc_generationConfig := generationConfig G;
                       sc_history := LogicalOr h (VArr []) |} = Returns chatSession ->
      messages_sent (trace (handleChatRequest G genai body)) = [p]).
Proof.
  intros Hp Hh Ht.
  destruct (run_calls_exact genai p (LogicalOr h (VArr [])) G)
    as (o & tr & Hrun & Ho & Hsessions & Hsent).
  destruct (handler_after_run _ _ _ _ _ _ _ Hp Hh Ht Hrun Ho) as (code & text & ->).
  cbn [trace]. rewrite chat_sessions_app, messages_sent_app, Hsessions, Hsent.
  split; [|split].
  - intros e ->. split; reflexivity.
  - intros mdl e -> ->. reflexivity.
  - intros mdl chatSession -> ->. reflexivity.
Qed.

Lemma client_calls_stop_at_first_throw_witness :
  messages_sent (trace (handleChatRequest scope0 (stub_refusing_session bad_history)
                          body_model_first)) = []
  /\ messages_sent (trace (handleChatRequest scope0 (stub_reply "Hi there!")
                             body_model_first)) = [VStr "Hi"].
Proof.
  split.
  - eapply (proj1 (proj2 (client_calls_stop_at_first_throw scope0
                            (stub_refusing_session bad_history) body_model_first
                            (VStr "Hi") _ eq_refl eq_refl eq_refl))); reflexivity.
  - eapply (proj2 (proj2 (client_calls_stop_at_first_throw scope0
                            (stub_reply "Hi there!") body_model_first
                            (VStr "Hi") _ eq_refl eq_refl eq_refl))); reflexivity.
Defined.

(** X9: for a body that can be read, the handler writes one of three
    responses, and each tells what happened.  A 400 carries "Prompt is
    required." and the prompt was falsy; a 500 carries the fixed error text
    and a call to the client threw; a 200 carries the text the client
    returned. *)
Theorem payload_matches_status G genai body :
  nullish body = false ->
  exists r p h,
    response (handleChatRequest G genai body) = Some r
    /\ Get body "prompt" = Returns p /\ Get body "history" = Returns h
    /\ ((r = {| status := 400; payload := VStr "Prompt is required." |}
         /\ ToBoolean p = false)
        \/ (r = {| status := 500;
                   payload := VStr "Error processing request. Check server logs for details." |}
            /\ ToBoolean p = true
            /\ exists e, provider_reply genai (generationConfig G) p
                           (LogicalOr h (VArr [])) = Throws e)
        \/ (exists t, r = {| status := 200; payload := VStr t |}
            /\ ToBoolean p = true
            /\ provider_reply genai (generationConfig G) p
                 (LogicalOr h (VArr [])) = Returns t)).
Proof.
  intros Hn.
  destruct (handler_paths G genai body)
    as [e Hn'|p Hp Ht|p h t Hp Hh Ht Hr|p h e calls Hp Hh Ht Hr Hc].
  - congruence.
  - destruct (Get_returns body "history" Hn) as [h Hh].
    eexists _, p, h. split; [reflexivity|]. repeat split; try assumption.
    left. split; [reflexivity|assumption].
  - eexists _, p, h. split; [reflexivity|]. repeat split; try assumption.
    right; right. exists t. repeat split; assumption.
  - exists {| status := 500; payload := VStr error_processing |}, p, h.
    split; [destruct Hc as [->|[->| ->]]; reflexivity|].
    repeat split; try assumption.
    right; left. split; [reflexivity|split; [assumption|now exists e]].
Qed.

Lemma payload_matches_status_witness :
  exists r p h,
    response (handleChatRequest scope0 (stub_reply "Hi there!") body_hello) = Some r
    /\ Get body_hello "prompt" = Returns p /\ Get body_hello "history" = Returns h
    /\ (status r = 400 \/ status r = 500 \/ status r = 200).
Proof.
  destruct (payload_matches_status scope0 (stub_reply "Hi there!") body_hello eq_refl)
    as (r & p & h & Hr & Hp & Hh & Hcase).
  exists r, p, h. split; [exact Hr|]. split; [exact Hp|]. split; [exact Hh|].
  destruct Hcase as [[-> _]|[[-> _]|(t & -> & _)]]; cbn; auto.
Defined.

(** X11: a prompt that is absent, [null], [false], the empty string or a
    zero or NaN number is answered 400 with body "Prompt is required.", and
    neither [run] nor any method of the client is called. *)
Theorem missing_prompt_gets_400 G genai body p :
  Get body "prompt" = Returns p ->
  p = VUndefined \/ p = VNull \/ p = VBool false \/ p = VStr "" \/
  (exists x, p = VNum x
     /\ (PrimFloat.eqb x 0%float = true \/ PrimFloat.eqb x x = false)) ->
  response (handleChatRequest G genai body) =
    Some {| status := 400; payload := VStr "Prompt is required." |}
  /\ run_calls (trace (handleChatRequest G genai body)) = []
  /\ model_requests (trace (handleChatRequest G genai body)) = []
  /\ chat_sessions (trace (handleChatRequest G genai body)) = []
  /\ messages_sent (trace (handleChatRequest G genai body)) = [].
Proof.
  intros Hp Hfalsy. apply falsy_values in Hfalsy.
  rewrite (handler_falsy_prompt _ _ _ _ Hp Hfalsy). repeat split.
Qed.

Lemma missing_prompt_gets_400_witness :
  response (handleChatRequest scope0 (stub_reply "Hi there!") body_no_prompt) =
    Some {| status := 400; payload := VStr "Prompt is required." |}
  /\ run_calls (trace (handleChatRequest scope0 (stub_reply "Hi there!") body_no_prompt)) = [].
Proof.
  destruct (missing_prompt_gets_400 scope0 (stub_reply "Hi there!") body_no_prompt
              VUndefined eq_refl (or_introl eq_refl)) as (H400 & Hrun & _).
  exact (conj H400 Hrun).
Defined.

(** ** Further properties of start-up *)

(** X10: the module exits exactly when [AI_KEY] is unset or set to the empty
    string, whatever else the environment holds; on that path no client is
    constructed and no port is bound.  Otherwise one client is constructed,
    with the string found in [AI_KEY], and the process goes on to serve. *)
Theorem exits_exactly_without_a_key (env : gmap string string) :
  ((main env).1 = Exited 1 <-> env !! "AI_KEY" = None \/ env !! "AI_KEY" = Some "")
  /\ ((main env).1 = Exited 1 ->
      clients_created (main env).2 = [] /\ ports_bound (main env).2 = [])
  /\ (forall G, (main env).1 = Serving G ->
      exists key, env !! "AI_KEY" = Some key /\ key <> ""
        /\ apiKey G = VStr key
        /\ clients_created (main env).2 = [VStr key]).
Proof.
  unfold main. destruct (env !! "AI_KEY") as [key|] eqn:Hk; cbn.
  - destruct (String.eqb_spec key "") as [->|Hne]; cbn.
    + split; [split; auto|]. split; [auto|]. intros G [=].
    + split; [split; [intros [=]|intros [[=]|[= ->]]; congruence]|].
      split; [intros [=]|]. intros G [= <-]. exists key. repeat split. exact Hne.
  - split; [split; auto|]. split; [auto|]. intros G [=].
Qed.

Lemma exits_exactly_without_a_key_witness :
  (main {[ "AI_KEY" := ""; "PORT" := "3000" ]}).1 = Exited 1
  /\ ports_bound (main {[ "AI_KEY" := ""; "PORT" := "3000" ]}).2 = [].
Proof.
  destruct (exits_exactly_without_a_key {[ "AI_KEY" := ""; "PORT" := "3000" ]})
    as ([_ Hexit] & Hquiet & _).
  assert ((main {[ "AI_KEY" := ""; "PORT" := "3000" ]}).1 = Exited 1) as Hx
    by (apply Hexit; right; reflexivity).
  split; [exact Hx|exact (proj2 (Hquiet Hx))].
Defined.
